(** * convert_to_onnx.py: the PyTorch-to-ONNX conversion script of rl_sar

    A shallow embedding of [src/rl_sar/scripts/convert_to_onnx.py] and the
    properties of its single-file conversion, its batch mode and its
    command-line exit behaviour. *)

From Stdlib Require Import ZArith Lia Ascii.
From stdpp Require Import base option list strings gmap pretty.

Local Open Scope Z_scope.

(** ** Python string operations used by the script *)

Module PyStr.

(** [s.startswith(p)] *)
Fixpoint startswith (p s : string) : bool :=
  match p, s with
  | EmptyString, _ => true
  | String a p', String b s' => if decide (a = b) then startswith p' s' else false
  | String _ _, EmptyString => false
  end.

(** [s.endswith(p)] *)
Definition endswith (p s : string) : bool :=
  startswith (String.rev p) (String.rev s).

(** [p in s]: [p] occurs in [s] as a substring. *)
Fixpoint occurs (p s : string) : bool :=
  startswith p s ||
  match s with
  | EmptyString => false
  | String _ s' => occurs p s'
  end.

(** The scan of [str.replace] for a non-empty pattern: left to right, at
    each position either the pattern starts there, and then [new] is emitted
    and the [length old] characters of the occurrence are skipped, or the
    character is copied. [skip] counts the characters of the current
    occurrence still to be dropped. *)
Fixpoint replace_go (old new : string) (skip : nat) (s : string) : string :=
  match s with
  | EmptyString => EmptyString
  | String c s' =>
      match skip with
      | S k => replace_go old new k s'
      | O =>
          if startswith old s
          then new +:+ replace_go old new (Nat.pred (String.length old)) s'
          else String c (replace_go old new O s')
      end
  end.

(** With an empty pattern Python puts [new] before every character and at
    the end. *)
Fixpoint interleave (new s : string) : string :=
  match s with
  | EmptyString => new
  | String c s' => new +:+ String c (interleave new s')
  end.

(** [s.replace(old, new)]: every non-overlapping occurrence, leftmost
    first. *)
Definition replace (s old new : string) : string :=
  match old with
  | EmptyString => interleave new s
  | String _ _ => replace_go old new O s
  end.

End PyStr.

(** [os.path.join(a, b)] of posixpath, for two components. *)
Definition path_join (a b : string) : string :=
  if PyStr.startswith "/" b then b
  else if decide (a = "") then b
  else if PyStr.endswith "/" a then a +:+ b
  else a +:+ "/" +:+ b.

(** Line 34 of the script: [model_path.replace('.pt', '.onnx')]. *)
Definition derived_output_path (model_path : string) : string :=
  PyStr.replace model_path ".pt" ".onnx".

(** Lines 33-34: the output path the conversion works with. *)
Definition resolve_output_path (model_path : string) (output_path : option string) : string :=
  match output_path with
  | None => derived_output_path model_path
  | Some p => p
  end.

(** What the data model asks for: the extension [.pt] at the end of the path
    replaced by [.onnx], everything before it kept. Follows the
    specification's words, to be compared with [derived_output_path]. *)
Definition spec_swap_extension (model_path : string) : option string :=
  if PyStr.endswith ".pt" model_path
  then Some (String.substring 0 (String.length model_path - 3) model_path +:+ ".onnx")
  else None.

(** ** Exceptions and outcomes *)

(** The exceptions the script can meet. [ImportError] is what [import onnx]
    raises when the package is missing; [OtherException] stands for every
    other subclass of [Exception] (RuntimeError, AttributeError, ...);
    [KeyboardInterrupt] and [SystemExit] derive from [BaseException] only, so
    an [except Exception] clause does not catch them. *)
Inductive exn :=
  | ImportError (msg : string)
  | OtherException (msg : string)
  | KeyboardInterrupt
  | SystemExit (code : Z).

(** [isinstance(e, ImportError)] *)
Definition is_ImportError (e : exn) : bool :=
  match e with ImportError _ => true | _ => false end.

(** [isinstance(e, Exception)] *)
Definition is_Exception (e : exn) : bool :=
  match e with ImportError _ | OtherException _ => true | _ => false end.

(** [str(e)], as an f-string renders [{e}]. *)
Definition exn_str (e : exn) : string :=
  match e with
  | ImportError m | OtherException m => m
  | KeyboardInterrupt => ""
  | SystemExit c => pretty c
  end.

Inductive outcome (A : Type) :=
  | Return (a : A)
  | Raise (e : exn).
Arguments Return {A} a.
Arguments Raise {A} e.

(** ** The exporter's arguments *)

(** The keyword arguments of [torch.onnx.export] (lines 63-71). *)
Record export_config := {
  export_params : bool;
  opset_version : Z;
  do_constant_folding : bool;
  input_names : list string;
  output_names : list string;
  dynamic_axes : gmap string (gmap Z string)
}.

Definition onnx_export_config : export_config := {|
  export_params := true;
  opset_version := 11;
  do_constant_folding := true;
  input_names := ["observations"];
  output_names := ["actions"];
  dynamic_axes :=
    {[ "observations" := {[ 0 := "batch_size" ]};
       "actions" := {[ 0 := "batch_size" ]} ]}
|}.

(** What [torch.onnx.export] did with the path it was given: it returned
    after writing the artifact there, or it raised, having possibly left a
    file (partial or complete) at that path. It writes nowhere else. *)
Inductive export_result :=
  | Exported (artifact : string)
  | ExportFailed (left_behind : option string) (e : exn).

(** ** The external collaborators *)

(** The calls into torch and onnx, as they appear in the trace. *)
Inductive call :=
  | CallJitLoad (path : string)
  | CallEval
  | CallRandn (shape : list Z)
  | CallForward
  | CallOutputShape
  | CallExport (path : string) (cfg : export_config)
  | CallImportOnnx
  | CallOnnxLoad (path : string)
  | CallCheckModel.

(** [Invoke] marks an entry into [convert_pytorch_to_onnx] with its three
    arguments; [Ext c r] is an external call with the exception it raised, if
    any. The trace is ghost state: the script never reads it. *)
Inductive event :=
  | Invoke (model_path : string) (input_size : option Z) (output_path : option string)
  | Ext (c : call) (raised : option exn).

(** The execution engine, the exporter and the verifier. Their results are
    not determined by the script, so each is a field of the runtime. *)
Record Runtime := {
  Model : Type;
  Tensor : Type;
  Output : Type;
  OnnxModel : Type;
  (** [torch.jit.load(path)], reading the filesystem *)
  jit_load : string -> gmap string string -> outcome Model;
  (** [model.eval()]: the module, now in evaluation mode *)
  module_eval : Model -> outcome Model;
  (** [torch.randn] at the given shape, [dtype=torch.float32]; the first
      argument numbers the draw, so that two draws need not agree *)
  randn : N -> list Z -> outcome Tensor;
  (** [model(dummy_input)] under [torch.no_grad()] *)
  forward : Model -> Tensor -> outcome Output;
  (** the text of [dummy_input.shape] *)
  tensor_shape : Tensor -> string;
  (** the text of [output.shape]; raises when the module did not return a
      tensor *)
  output_shape : Output -> outcome string;
  (** [torch.onnx.export(model, dummy_input, path, ...)] with the keyword
      arguments of the configuration *)
  onnx_export : Model -> Tensor -> string -> export_config -> gmap string string -> export_result;
  (** [import onnx] *)
  import_onnx : outcome unit;
  (** [onnx.load(path)], reading the filesystem *)
  onnx_load : string -> gmap string string -> outcome OnnxModel;
  (** [onnx.checker.check_model(onnx_model)] *)
  check_model : OnnxModel -> outcome unit
}.

(** ** Program state and the monad of the script *)

(** [files] maps every path for which [os.path.exists] holds to what is
    stored there; [stdout] is what [print] has written, one entry per call;
    [draws] counts the random tensors drawn so far. *)
Record state := {
  files : gmap string string;
  stdout : list string;
  calls : list event;
  draws : N
}.

Definition add_stdout (s : string) (st : state) : state :=
  {| files := files st; stdout := stdout st ++ [s]; calls := calls st; draws := draws st |}.
Definition add_event (ev : event) (st : state) : state :=
  {| files := files st; stdout := stdout st; calls := calls st ++ [ev]; draws := draws st |}.
Definition write_file (p : string) (c : option string) (st : state) : state :=
  {| files := match c with Some a => <[p := a]> (files st) | None => files st end;
     stdout := stdout st; calls := calls st; draws := draws st |}.
Definition next_draw (st : state) : state :=
  {| files := files st; stdout := stdout st; calls := calls st; draws := N.succ (draws st) |}.

(** A computation reads and updates the state and either returns a value or
    raises. *)
Definition M (A : Type) : Type := state -> outcome A * state.

Definition ret {A} (a : A) : M A := fun st => (Return a, st).

Definition bind {A B} (m : M A) (k : A -> M B) : M B :=
  fun st =>
    match m st with
    | (Return a, st') => k a st'
    | (Raise e, st') => (Raise e, st')
    end.

Declare Scope py_scope.
Delimit Scope py_scope with py.
Notation "x <- m ;; k" := (bind m (fun x => k))
  (at level 100, m at next level, right associativity) : py_scope.
Notation "m ;;; k" := (bind m (fun _ => k))
  (at level 100, right associativity) : py_scope.
Local Open Scope py_scope.

(** [raise e] *)
Definition raise {A} (e : exn) : M A := fun st => (Raise e, st).

(** [print(s)] *)
Definition print (s : string) : M unit := fun st => (Return tt, add_stdout s st).

(** [os.path.exists(p)] *)
Definition os_path_exists (p : string) : M bool :=
  fun st => (Return (bool_decide (is_Some (files st !! p))), st).

(** [sys.exit(code)] *)
Definition sys_exit {A} (code : Z) : M A := raise (SystemExit code).

(** An external call whose result [o] is known once the state is: it is
    recorded in the trace and its result passed on. *)
Definition external {A} (c : call) (o : state -> outcome A) : M A :=
  fun st =>
    match o st with
    | Return a => (Return a, add_event (Ext c None) st)
    | Raise e => (Raise e, add_event (Ext c (Some e)) st)
    end.

(** [try: body  except C1: h1  except C2 as e: h2 ...]: the first clause
    whose class the exception is an instance of handles it; with no such
    clause the exception goes on. *)
Fixpoint dispatch {A} (clauses : list ((exn -> bool) * (exn -> M A))) (e : exn) : M A :=
  match clauses with
  | [] => raise e
  | (cls, h) :: rest => if cls e then h e else dispatch rest e
  end.

Definition try_except {A} (body : M A) (clauses : list ((exn -> bool) * (exn -> M A))) : M A :=
  fun st =>
    match body st with
    | (Return a, st') => (Return a, st')
    | (Raise e, st') => dispatch clauses e st'
    end.

(** ** The script *)

Definition nl : string := String "010"%char "".

(** The ghost step recording an entry into the conversion function. *)
Definition enter (ev : event) : M unit := fun st => (Return tt, add_event ev st).

(** The calls of the script into its collaborators. *)
Definition torch_jit_load (rt : Runtime) (path : string) : M (Model rt) :=
  external (CallJitLoad path) (fun st => jit_load rt path (files st)).

Definition model_eval (rt : Runtime) (m : Model rt) : M (Model rt) :=
  external CallEval (fun _ => module_eval rt m).

Definition torch_randn (rt : Runtime) (shape : list Z) : M (Tensor rt) :=
  fun st => external (CallRandn shape) (fun _ => randn rt (draws st) shape) (next_draw st).

Definition model_call (rt : Runtime) (m : Model rt) (x : Tensor rt) : M (Output rt) :=
  external CallForward (fun _ => forward rt m x).

Definition get_output_shape (rt : Runtime) (y : Output rt) : M string :=
  external CallOutputShape (fun _ => output_shape rt y).

Definition torch_onnx_export (rt : Runtime) (m : Model rt) (x : Tensor rt)
    (path : string) (cfg : export_config) : M unit :=
  fun st =>
    match onnx_export rt m x path cfg (files st) with
    | Exported a =>
        (Return tt, write_file path (Some a) (add_event (Ext (CallExport path cfg) None) st))
    | ExportFailed remains e =>
        (Raise e, write_file path remains (add_event (Ext (CallExport path cfg) (Some e)) st))
    end.

Definition do_import_onnx (rt : Runtime) : M unit :=
  external CallImportOnnx (fun _ => import_onnx rt).

Definition do_onnx_load (rt : Runtime) (path : string) : M (OnnxModel rt) :=
  external (CallOnnxLoad path) (fun st => onnx_load rt path (files st)).

Definition do_check_model (rt : Runtime) (m : OnnxModel rt) : M unit :=
  external CallCheckModel (fun _ => check_model rt m).

(** Lines 43-47: the input size, 48 with two warnings when none was given. *)
Definition resolve_input_size (input_size : option Z) : M Z :=
  match input_size with
  | None =>
      print "Warning: Input size not specified, using default: 48" ;;;
      print "If this fails, try specifying --input_size with one of: [45, 48, 51, 57, 87]" ;;;
      ret 48
  | Some n => ret n
  end.

(** Lines 77-87: the verification of the exported file, with its two
    handlers. *)
Definition verify_onnx (rt : Runtime) (output_path : string) : M unit :=
  try_except
    (do_import_onnx rt ;;;
     onnx_model <- do_onnx_load rt output_path ;;
     do_check_model rt onnx_model ;;;
     print "ONNX model verification successful")
    [ (is_ImportError, fun _ =>
         print "Warning: onnx package not available for verification" ;;;
         print "You can install it with: pip install onnx");
      (is_Exception, fun e =>
         print ("Warning: ONNX model verification failed: " +:+ exn_str e) ;;;
         print "Model was still exported successfully") ].

(** Lines 37-89: the body of the outer [try]. *)
Definition convert_body (rt : Runtime) (model_path : string)
    (input_size : option Z) (output_path : string) : M bool :=
  print ("Loading PyTorch model: " +:+ model_path) ;;;
  model <- torch_jit_load rt model_path ;;
  model <- model_eval rt model ;;
  input_size <- resolve_input_size input_size ;;
  dummy_input <- torch_randn rt [1; input_size] ;;
  output <- model_call rt model dummy_input ;;
  out_shape <- get_output_shape rt output ;;
  print ("Model test successful - Input: " +:+ tensor_shape rt dummy_input
         +:+ ", Output: " +:+ out_shape) ;;;
  print ("Exporting to ONNX: " +:+ output_path) ;;;
  torch_onnx_export rt model dummy_input output_path onnx_export_config ;;;
  print ("Successfully converted " +:+ model_path +:+ " to " +:+ output_path) ;;;
  verify_onnx rt output_path ;;;
  ret true.

(** Lines 19-93. *)
Definition convert_pytorch_to_onnx (rt : Runtime) (model_path : string)
    (input_size : option Z) (output_path : option string) : M bool :=
  enter (Invoke model_path input_size output_path) ;;;
  found <- os_path_exists model_path ;;
  if negb found then
    (print ("Error: Model file " +:+ model_path +:+ " not found") ;;;
     ret false)
  else
    let output_path := resolve_output_path model_path output_path in
    try_except
      (convert_body rt model_path input_size output_path)
      [ (is_Exception, fun e =>
           print ("Error during conversion: " +:+ exn_str e) ;;;
           ret false) ].

(** *** Batch mode *)

(** A directory as [os.walk] sees it: the names of its files and its
    subdirectories with their names. *)
#[warnings="-register-all"] Inductive dir_tree :=
  | DirNode (filenames : list string) (subdirs : list (string * dir_tree)).

(** [os.walk(top)], top-down: the triple of a directory, then the walks of
    its subdirectories. The tree is the one the walk lists; the conversions
    of the batch add no file with a name in [.pt] to it
    ([derived_output_path_no_pt]). *)
Fixpoint os_walk (top : string) (t : dir_tree) : list (string * list string * list string) :=
  match t with
  | DirNode filenames subdirs =>
      (top, map fst subdirs, filenames)
      :: flat_map (fun '(d, t') => os_walk (path_join top d) t') subdirs
  end.

(** The line printed before each conversion of the batch (line 119). *)
Definition banner (model_path : string) : string :=
  nl +:+ "--- Converting " +:+ model_path +:+ " ---".

(** [success_count] and [total_count] of lines 112-113. *)
Record counters := { success_count : Z; total_count : Z }.

(** Lines 116-122: the inner loop, over the file names of one directory. *)
Fixpoint for_files (rt : Runtime) (input_size : option Z) (root : string)
    (filenames : list string) (c : counters) : M counters :=
  match filenames with
  | [] => ret c
  | file :: rest =>
      c' <- (if PyStr.endswith ".pt" file then
               let model_path := path_join root file in
               print (banner model_path) ;;;
               let c1 := {| success_count := success_count c;
                            total_count := total_count c + 1 |} in
               ok <- convert_pytorch_to_onnx rt model_path input_size None ;;
               ret (if ok : bool
                    then {| success_count := success_count c1 + 1;
                            total_count := total_count c1 |}
                    else c1)
             else ret c) ;;
      for_files rt input_size root rest c'
  end.

(** Lines 115-122: the outer loop, over the triples of the walk. *)
Fixpoint for_walk (rt : Runtime) (input_size : option Z)
    (walk : list (string * list string * list string)) (c : counters) : M counters :=
  match walk with
  | [] => ret c
  | (root, _, filenames) :: rest =>
      c' <- for_files rt input_size root filenames c ;;
      for_walk rt input_size rest c'
  end.

(** Lines 112-122: both counters start at zero. *)
Definition convert_batch (rt : Runtime) (input_size : option Z)
    (policy_dir : string) (tree : dir_tree) : M counters :=
  for_walk rt input_size (os_walk policy_dir tree)
    {| success_count := 0; total_count := 0 |}.

(** *** The command line *)

(** The namespace [argparse] returns. *)
Record args := {
  model_path : string;
  input_size : option Z;
  output_path : option string;
  batch_convert : bool
}.

Definition summary_line (c : counters) : string :=
  nl +:+ "Batch conversion completed: " +:+ pretty (success_count c) +:+ "/"
     +:+ pretty (total_count c) +:+ " models converted successfully".

(** Lines 105-128. [script_dir] is [os.path.dirname(__file__)] and [tree]
    what [os.walk] finds below the policy directory. *)
Definition main (rt : Runtime) (script_dir : string) (tree : dir_tree) (a : args) : M unit :=
  if batch_convert a then
    let policy_dir := path_join script_dir "policy" in
    found <- os_path_exists policy_dir ;;
    if negb found then
      print ("Error: Policy directory " +:+ policy_dir +:+ " not found")
    else
      (c <- convert_batch rt (input_size a) policy_dir tree ;;
       print (summary_line c))
  else
    (success <- convert_pytorch_to_onnx rt (model_path a) (input_size a) (output_path a) ;;
     sys_exit (if success : bool then 0 else 1)).

(** How the process ends: with an exit status, or killed by a signal. *)
Inductive termination :=
  | Exited (status : Z)
  | Killed (signal : Z).

(** The end of the interpreter (CPython 3.8 and later, POSIX): status 0 when
    [main] returns, the code of an uncaught [SystemExit], death by SIGINT
    (signal 2) for an uncaught [KeyboardInterrupt], and status 1 after the
    traceback of any other uncaught exception. *)
Definition exit_status (o : outcome unit) : termination :=
  match o with
  | Return _ => Exited 0
  | Raise (SystemExit code) => Exited code
  | Raise KeyboardInterrupt => Killed 2
  | Raise (ImportError _) | Raise (OtherException _) => Exited 1
  end.

(** *** The command line, from [sys.argv] *)

(** Lines 96-103: the parser and [parse_args]. The model covers the command
    lines made of the three long options written in full and of words that
    do not begin with [-]; on any other command line (abbreviated options,
    [--opt=value], [-h], [--], negative numbers) [parse_args] is [None] and
    nothing is said. What argparse writes goes to standard error. *)
Definition is_plain (t : string) : bool := negb (PyStr.startswith "-" t).

Definition option_strings : list string :=
  ["--input_size"; "--output_path"; "--batch_convert"].

Definition in_fragment (t : string) : bool :=
  is_plain t || bool_decide (t ∈ option_strings).

Definition is_digit (c : ascii) : bool :=
  (48 <=? nat_of_ascii c)%nat && (nat_of_ascii c <=? 57)%nat.

Fixpoint digits_value (s : string) (acc : Z) : option Z :=
  match s with
  | EmptyString => Some acc
  | String c s' =>
      if is_digit c
      then digits_value s' (10 * acc + Z.of_nat (nat_of_ascii c - 48))
      else None
  end.

(** [int(s)] of [type=int], for the strings of 1 to 4300 ASCII digits (the
    interpreter's limit on the digits of a decimal string); [None] for every
    other string, of which the model says nothing. *)
Definition int_of_digits (s : string) : option Z :=
  match s with
  | EmptyString => None
  | String _ _ => if (String.length s <=? 4300)%nat then digits_value s 0 else None
  end.

(** The option that waits for its argument. *)
Inductive pending := NoPending | WantsInputSize | WantsOutputPath.

(** What has been parsed so far; [p_extra] records a second positional. *)
Record parsed := {
  p_model : option string;
  p_size : option Z;
  p_out : option string;
  p_batch : bool;
  p_extra : bool
}.

(** The error exit of argparse: usage on standard error, status 2. *)
Definition usage_error {A} : outcome A := Raise (SystemExit 2).

(** The end of the command line: an unrecognized second word or a missing
    [model_path] is an error, also in batch mode; line 97 declares the
    positional without [nargs]. *)
Definition finish (acc : parsed) : outcome args :=
  match p_model acc with
  | None => usage_error
  | Some m =>
      if p_extra acc then usage_error
      else Return {| model_path := m; input_size := p_size acc;
                     output_path := p_out acc; batch_convert := p_batch acc |}
  end.

(** The scan of the arguments from left to right. An option that takes an
    argument needs a word after it; a repeated option overwrites; the first
    free word is [model_path]. *)
Fixpoint parse_go (argv : list string) (pend : pending) (acc : parsed)
    : option (outcome args) :=
  match argv with
  | [] =>
      match pend with
      | NoPending => Some (finish acc)
      | WantsInputSize | WantsOutputPath => Some usage_error
      end
  | t :: rest =>
      match pend with
      | WantsInputSize =>
          if is_plain t then
            match int_of_digits t with
            | Some n =>
                parse_go rest NoPending
                  {| p_model := p_model acc; p_size := Some n; p_out := p_out acc;
                     p_batch := p_batch acc; p_extra := p_extra acc |}
            | None => None
            end
          else Some usage_error
      | WantsOutputPath =>
          if is_plain t then
            parse_go rest NoPending
              {| p_model := p_model acc; p_size := p_size acc; p_out := Some t;
                 p_batch := p_batch acc; p_extra := p_extra acc |}
          else Some usage_error
      | NoPending =>
          if decide (t = "--batch_convert") then
            parse_go rest NoPending
              {| p_model := p_model acc; p_size := p_size acc; p_out := p_out acc;
                 p_batch := true; p_extra := p_extra acc |}
          else if decide (t = "--input_size") then parse_go rest WantsInputSize acc
          else if decide (t = "--output_path") then parse_go rest WantsOutputPath acc
          else
            match p_model acc with
            | None =>
                parse_go rest NoPending
                  {| p_model := Some t; p_size := p_size acc; p_out := p_out acc;
                     p_batch := p_batch acc; p_extra := p_extra acc |}
            | Some _ =>
                parse_go rest NoPending
                  {| p_model := p_model acc; p_size := p_size acc; p_out := p_out acc;
                     p_batch := p_batch acc; p_extra := true |}
            end
      end
  end.

(** [parser.parse_args()] on [sys.argv[1:]]. *)
Definition parse_args (argv : list string) : option (outcome args) :=
  if forallb in_fragment argv then
    parse_go argv NoPending
      {| p_model := None; p_size := None; p_out := None; p_batch := false;
         p_extra := false |}
  else None.

(** Lines 95-131: [main()] as the interpreter runs it, parsing first. *)
Definition run_main (rt : Runtime) (script_dir : string) (tree : dir_tree)
    (argv : list string) : option (M unit) :=
  match parse_args argv with
  | None => None
  | Some (Return a) => Some (main rt script_dir tree a)
  | Some (Raise e) => Some (raise e)
  end.


(** ** Notions the properties are stated with *)

(** The events a run has added to the trace. *)
Definition events_since (st st' : state) : list event :=
  drop (length (calls st)) (calls st').

Definition is_invoke (ev : event) : bool :=
  match ev with Invoke _ _ _ => true | Ext _ _ => false end.

(** The external call an event records returned normally. *)
Definition returned (ev : event) : Prop :=
  match ev with Invoke _ _ _ => True | Ext _ r => r = None end.



(** Every exception a collaborator raises is an error, that is an instance
    of [Exception]: no interrupt and no exit request comes out of torch or
    onnx. *)
Record errors_only (rt : Runtime) : Prop := {
  eo_jit_load : forall p fs e, jit_load rt p fs = Raise e -> is_Exception e = true;
  eo_module_eval : forall m e, module_eval rt m = Raise e -> is_Exception e = true;
  eo_randn : forall n sh e, randn rt n sh = Raise e -> is_Exception e = true;
  eo_forward : forall m x e, forward rt m x = Raise e -> is_Exception e = true;
  eo_output_shape : forall y e, output_shape rt y = Raise e -> is_Exception e = true;
  eo_onnx_export : forall m x p cfg fs l e,
    onnx_export rt m x p cfg fs = ExportFailed l e -> is_Exception e = true;
  eo_import_onnx : forall e, import_onnx rt = Raise e -> is_Exception e = true;
  eo_onnx_load : forall p fs e, onnx_load rt p fs = Raise e -> is_Exception e = true;
  eo_check_model : forall m e, check_model rt m = Raise e -> is_Exception e = true
}.

(** Whatever the verifier raises is an error: the package is missing
    ([ImportError]) or a load or a check fails with an [Exception]. *)
Record verifier_raises_errors_only (rt : Runtime) : Prop := {
  ve_import_onnx : forall e, import_onnx rt = Raise e -> is_Exception e = true;
  ve_onnx_load : forall p fs e, onnx_load rt p fs = Raise e -> is_Exception e = true;
  ve_check_model : forall m e, check_model rt m = Raise e -> is_Exception e = true
}.

(** The input size the conversion works with (line 45). *)
Definition effective_input_size (input_size : option Z) : Z :=
  match input_size with None => 48 | Some n => n end.

(** Steps 1 to 4 succeed on the request: the file is there, the model loads
    and goes to evaluation mode, the tensor is drawn, the forward pass returns
    a tensor and the exporter returns. *)
Definition steps_1_to_4_succeed (rt : Runtime) (model_path : string)
    (input_size : option Z) (output_path : option string) (st : state) : Prop :=
  is_Some (files st !! model_path) /\
  exists m m' x y sh a,
    jit_load rt model_path (files st) = Return m /\
    module_eval rt m = Return m' /\
    randn rt (draws st) [1; effective_input_size input_size] = Return x /\
    forward rt m' x = Return y /\
    output_shape rt y = Return sh /\
    onnx_export rt m' x (resolve_output_path model_path output_path)
      onnx_export_config (files st) = Exported a.

(** *** The batch as one flat loop *)

(** The (directory, file name) pairs of a walk, in the order in which the
    two loops of the batch meet them. *)
Definition walk_entries (walk : list (string * list string * list string)) : list (string * string) :=
  flat_map (fun '(root, _, filenames) => map (pair root) filenames) walk.

Definition is_model_file (entry : string * string) : bool :=
  PyStr.endswith ".pt" entry.2.

Definition zero_counters : counters := {| success_count := 0; total_count := 0 |}.

(** One iteration of the body of the inner loop (lines 117-122). *)
Definition visit (rt : Runtime) (input_size : option Z) (entry : string * string)
    (c : counters) : M counters :=
  if PyStr.endswith ".pt" entry.2 then
    let model_path := path_join entry.1 entry.2 in
    print (banner model_path) ;;;
    let c1 := {| success_count := success_count c;
                 total_count := total_count c + 1 |} in
    ok <- convert_pytorch_to_onnx rt model_path input_size None ;;
    ret (if ok : bool
         then {| success_count := success_count c1 + 1;
                 total_count := total_count c1 |}
         else c1)
  else ret c.

(** The two nested loops as a single loop over the entries. *)
Fixpoint for_entries (rt : Runtime) (input_size : option Z)
    (entries : list (string * string)) (c : counters) : M counters :=
  match entries with
  | [] => ret c
  | entry :: rest =>
      c' <- visit rt input_size entry c ;;
      for_entries rt input_size rest c'
  end.

(** What each conversion of a run over [entries] returned, in order: the
    conversions are run one after the other, each from the state the previous
    one left, as the batch runs them. *)
Fixpoint verdicts (rt : Runtime) (input_size : option Z)
    (entries : list (string * string)) (st : state) : list (outcome bool) :=
  match entries with
  | [] => []
  | entry :: rest =>
      if PyStr.endswith ".pt" entry.2 then
        let model_path := path_join entry.1 entry.2 in
        let r := convert_pytorch_to_onnx rt model_path input_size None
                   (add_stdout (banner model_path) st) in
        r.1 :: verdicts rt input_size rest r.2
      else verdicts rt input_size rest st
  end.

Definition succeeded (r : outcome bool) : bool :=
  match r with Return true => true | _ => false end.

(** The paths of the entries the batch converts. *)
Definition model_paths (entries : list (string * string)) : list string :=
  map (fun entry => path_join entry.1 entry.2) (List.filter is_model_file entries).

(** Every file below [top] whose name ends with [.pt], by recursion on the
    directory tree. Follows the specification's words, to be compared with
    what the loops over [os_walk] visit. *)
Fixpoint model_files_under (top : string) (t : dir_tree) : list string :=
  match t with
  | DirNode filenames subdirs =>
      map (path_join top) (List.filter (PyStr.endswith ".pt") filenames)
      ++ flat_map (fun '(d, t') => model_files_under (path_join top d) t') subdirs
  end.

(** ** Scenarios *)

(** Concrete collaborators and filesystems on which the script is run. *)
Module Scenario.

(** An engine whose model files hold the text [TS] followed by the input
    width the model expects, whose tensors are their shapes, and whose
    exporter, package import and checker are given. *)
Definition engine (export : string -> export_result) (import : outcome unit)
    (check : outcome unit) : Runtime := {|
  Model := Z; Tensor := list Z; Output := list Z; OnnxModel := string;
  jit_load := fun p fs =>
    if decide (fs !! p = Some "TS48") then Return 48
    else if decide (fs !! p = Some "TS45") then Return 45
    else Raise (OtherException "PytorchStreamReader failed reading zip archive");
  module_eval := fun m => Return m;
  randn := fun _ sh => Return sh;
  forward := fun m x =>
    if decide (x = [1; m]) then Return [1; 12]
    else Raise (OtherException "mat1 and mat2 shapes cannot be multiplied");
  tensor_shape := fun _ => "torch.Size([1, n])";
  output_shape := fun _ => Return "torch.Size([1, 12])";
  onnx_export := fun _ _ p _ _ => export p;
  import_onnx := import;
  onnx_load := fun p fs =>
    match fs !! p with
    | Some a => Return a
    | None => Raise (OtherException "No such file or directory")
    end;
  check_model := fun _ => check
|}.

(** Everything works and the exported file passes the check. *)
Definition rt_ok : Runtime :=
  engine (fun _ => Exported "ONNX") (Return tt) (Return tt).

(** The [onnx] package is not installed. *)
Definition rt_no_onnx : Runtime :=
  engine (fun _ => Exported "ONNX") (Raise (ImportError "No module named 'onnx'")) (Return tt).

(** The checker rejects the exported file. *)
Definition rt_check_fails : Runtime :=
  engine (fun _ => Exported "ONNX") (Return tt)
    (Raise (OtherException "ValidationError: graph is not valid")).


Definition fresh (fs : gmap string string) : state :=
  {| files := fs; stdout := []; calls := []; draws := 0%N |}.

(** One model of width 48 at the path of the specification's example. *)
Definition st_go2 : state := fresh {[ "policy/go2/policy.pt" := "TS48" ]}.

(** A model whose directory name also contains [.pt]. *)
Definition st_nested : state := fresh {[ "policy/go2.pt/policy.pt" := "TS48" ]}.

(** A model file saved without the [.pt] extension. *)
Definition st_no_ext : state := fresh {[ "policy/go2/policy" := "TS48" ]}.

(** The policy directory of a batch run: three model files, one of them of
    width 45, and two files that are not models. *)
Definition st_batch : state :=
  fresh {[ "policy" := ""; "policy/a.pt" := "TS48"; "policy/b.pt" := "TS45";
           "policy/sub/c.pt" := "TS48" ]}.

Definition tree_batch : dir_tree :=
  DirNode ["a.pt"; "b.pt"; "readme.md"] [("sub", DirNode ["c.pt"; "c.onnx"] [])].

Definition args_batch : args :=
  {| model_path := "ignored"; input_size := None;
     output_path := Some "out.onnx"; batch_convert := true |}.

Definition args_single : args :=
  {| model_path := "policy/go2/policy.pt"; input_size := Some 48;
     output_path := None; batch_convert := false |}.

End Scenario.

(** ** Notions of the further properties *)

(** The external calls of a run, without their results. *)
Definition ext_calls (evs : list event) : list call :=
  omap (fun ev => match ev with Ext c _ => Some c | Invoke _ _ _ => None end) evs.

(** The calls of a conversion in the order in which lines 39-80 make them,
    with the arguments the script gives them. *)
Definition pipeline (model_path : string) (input_size : option Z)
    (output_path : option string) : list call :=
  [ CallJitLoad model_path;
    CallEval;
    CallRandn [1; effective_input_size input_size];
    CallForward;
    CallOutputShape;
    CallExport (resolve_output_path model_path output_path) onnx_export_config;
    CallImportOnnx;
    CallOnnxLoad (resolve_output_path model_path output_path);
    CallCheckModel ].

(** The exception an outcome raised, if any. *)
Definition raised_by {A} (o : outcome A) : option exn :=
  match o with Return _ => None | Raise e => Some e end.

(** The three texts a conversion that returns [True] can print last
    (lines 81, 84 and 87). *)
Definition success_endings : list string :=
  [ "ONNX model verification successful";
    "You can install it with: pip install onnx";
    "Model was still exported successfully" ].

(** The lines a run has printed. *)
Definition stdout_since (st st' : state) : list string :=
  drop (length (stdout st)) (stdout st').

(** Further collaborators and trees on which the script is run. *)
Module Interrupts.

(** The user interrupts the checker: [check_model] raises
    [KeyboardInterrupt]. *)
Definition rt_interrupted : Runtime :=
  Scenario.engine (fun _ => Exported "ONNX") (Return tt) (Raise KeyboardInterrupt).

(** A policy directory without any model file. *)
Definition tree_no_models : dir_tree :=
  DirNode ["readme.md"] [("sub", DirNode ["c.onnx"] [])].

End Interrupts.





#[global] Instance export_config_eq_dec : EqDecision export_config.
Proof. solve_decision. Defined.



(** Scenarios with a directory as source, and with an exporter that names
    its tensors. *)
Module Edge.





End Edge.

(** ** Proof automation *)

(** The script with its monad unfolded. *)
Ltac unfold_script :=
  cbv [convert_pytorch_to_onnx convert_body verify_onnx resolve_input_size
       torch_jit_load model_eval torch_randn model_call get_output_shape
       torch_onnx_export do_import_onnx do_onnx_load do_check_model
       try_except dispatch external enter os_path_exists print raise ret bind].

(** Case analysis on the next external call of the goal. *)
Ltac case_call :=
  match goal with
  | |- context [match ?o with Return _ => _ | Raise _ => _ end] => destruct o eqn:?
  | |- context [match ?o with Exported _ => _ | ExportFailed _ _ => _ end] => destruct o eqn:?
  end; cbn.

(** All the runs of the conversion on an existing file. *)
Ltac all_runs :=
  unfold_script; cbn;
  case_bool_decide; cbn;
  [ match goal with |- context [match ?i with Some _ => _ | None => _ end] => destruct i end;
    cbn; repeat case_call
  | ].

(** The class of a raised exception, from what is known of the runtime. *)
Ltac class_of_raised Heo :=
  repeat match goal with
  | E : _ = Raise ?e |- _ =>
      lazymatch goal with
      | _ : is_Exception e = true |- _ => fail
      | _ => idtac
      end;
      first [ pose proof (eo_jit_load _ Heo _ _ _ E)
            | pose proof (eo_module_eval _ Heo _ _ E)
            | pose proof (eo_randn _ Heo _ _ _ E)
            | pose proof (eo_forward _ Heo _ _ _ E)
            | pose proof (eo_output_shape _ Heo _ _ E)
            | pose proof (eo_import_onnx _ Heo _ E)
            | pose proof (eo_onnx_load _ Heo _ _ _ E)
            | pose proof (eo_check_model _ Heo _ _ E) ]
  | E : _ = ExportFailed _ ?e |- _ =>
      lazymatch goal with
      | _ : is_Exception e = true |- _ => fail
      | _ => idtac
      end;
      pose proof (eo_onnx_export _ Heo _ _ _ _ _ _ _ E)
  end.

Ltac case_exn :=
  match goal with
  | H : is_Exception ?e = true |- _ => is_var e; destruct e; try discriminate H; cbn
  | |- context [is_Exception ?e] => is_var e; destruct e; cbn
  end.

(** The trace of a finished run, as the old trace followed by the new
    events. *)
Ltac trace_shape :=
  unfold events_since; cbn; rewrite <- ?app_assoc; cbn; rewrite ?drop_app_length.

(** The lines and the trace of a finished run, as what was there before
    followed by what is new. *)
Ltac log_shape :=
  unfold stdout_since, events_since; cbn; rewrite <- ?app_assoc; cbn;
  rewrite ?drop_app_length.

Ltac not_in_list H :=
  repeat (apply elem_of_cons in H as [H|H]; [discriminate H|]);
  apply elem_of_nil in H; exact H.

(** ** Properties of the string operations *)

Module PyStrFacts.
Import PyStr.

Lemma app_cons (c : ascii) (s t : string) : String c s +:+ t = String c (s +:+ t).
Proof. reflexivity. Qed.

Lemma app_nil_l (t : string) : "" +:+ t = t.
Proof. reflexivity. Qed.

Lemma occurs_cons (p : string) (c : ascii) (s : string) :
  occurs p (String c s) = false ->
  startswith p (String c s) = false /\ occurs p s = false.
Proof. cbn [occurs]. intros H. apply orb_false_elim in H. exact H. Qed.

Lemma startswith_app (p s : string) : startswith p (p +:+ s) = true.
Proof.
  induction p as [|a p IH]; [reflexivity|].
  rewrite app_cons. cbn [startswith]. case_decide; [exact IH | congruence].
Qed.

(** The characters of an occurrence are dropped. *)
Lemma replace_go_skip (old new pre s : string) :
  replace_go old new (String.length pre) (pre +:+ s) = replace_go old new O s.
Proof. induction pre as [|a pre IH]; [reflexivity|]. rewrite app_cons. exact IH. Qed.

(** The three equations of the scan: an occurrence at the head is replaced
    and the scan goes on behind it; any other character is copied; the empty
    string stays. They determine [replace_go old new 0] for a non-empty
    pattern. *)
Lemma replace_go_occurrence (a : ascii) (old new s : string) :
  replace_go (String a old) new O (String a old +:+ s)
  = new +:+ replace_go (String a old) new O s.
Proof.
  rewrite app_cons. cbn [replace_go]. rewrite <- app_cons, startswith_app.
  cbn [String.length Nat.pred]. rewrite replace_go_skip. reflexivity.
Qed.

Lemma replace_go_copy (old new : string) (c : ascii) (s : string) :
  startswith old (String c s) = false ->
  replace_go old new O (String c s) = String c (replace_go old new O s).
Proof. intros H. cbn [replace_go]. rewrite H. reflexivity. Qed.

Example replace_examples :
  replace "policy/go2/policy.pt" ".pt" ".onnx" = "policy/go2/policy.onnx" /\
  replace "a.pt.pt.p.ptx" ".pt" ".onnx" = "a.onnx.onnx.p.onnxx" /\
  replace "aaa" "aa" "b" = "ba" /\
  replace "ab" "" "-" = "-a-b-" /\
  replace "model.pth" ".pt" ".onnx" = "model.onnxh".
Proof. repeat split; reflexivity. Qed.

(** Where the pattern does not occur, the scan copies the string. *)
Lemma replace_go_absent (old new s : string) :
  occurs old s = false -> replace_go old new O s = s.
Proof.
  induction s as [|c s IH]; intros H; [reflexivity|].
  apply occurs_cons in H as [H1 H2].
  cbn [replace_go]. rewrite H1. f_equal. auto.
Qed.

Lemma replace_absent (s old new : string) :
  occurs old s = false -> replace s old new = s.
Proof.
  destruct old as [|a old]; intros H.
  - destruct s; discriminate H.
  - apply (replace_go_absent _ _ _ H).
Qed.

(** An occurrence of [.pt] that starts inside [s] lies inside [s]: it cannot
    run over into a [.pt] that follows. *)
Lemma startswith_pt_app (c : ascii) (s : string) :
  startswith ".pt" (String c s +:+ ".pt") = startswith ".pt" (String c s).
Proof.
  destruct s as [|b [|d s]]; rewrite ?app_cons, ?app_nil_l; cbn [startswith];
    repeat case_decide; try reflexivity; congruence.
Qed.

(** The scan on a path that ends in [.pt] and has no other occurrence. *)
Lemma replace_go_pt_suffix (stem : string) :
  occurs ".pt" stem = false ->
  replace_go ".pt" ".onnx" O (stem +:+ ".pt") = stem +:+ ".onnx".
Proof.
  induction stem as [|c stem IH]; intros H; [reflexivity|].
  apply occurs_cons in H as [H1 H2].
  pose proof (startswith_pt_app c stem) as E. rewrite H1 in E.
  rewrite !app_cons in *. cbn [replace_go]. rewrite E. f_equal. auto.
Qed.

(** The scan keeps the first character, since [.pt] and [.onnx] begin alike;
    so whether [.pt] starts at a copied character is the same before and
    after the scan of what follows. *)
Lemma startswith_pt_scan (c : ascii) (s : string) :
  startswith ".pt" (String c (replace_go ".pt" ".onnx" O s))
  = startswith ".pt" (String c s).
Proof.
  destruct s as [|a [|b s]]; [reflexivity| |].
  - cbn. repeat case_decide; reflexivity.
  - cbn [replace_go]. destruct (startswith ".pt" (String a (String b s))) eqn:E1.
    + cbn in E1 |- *. repeat case_decide; try reflexivity; try discriminate E1; congruence.
    + destruct (startswith ".pt" (String b s)) eqn:E2.
      * cbn in E2 |- *. repeat case_decide; try reflexivity; try discriminate E2; congruence.
      * cbn. repeat case_decide; reflexivity.
Qed.

(** The scan leaves no [.pt] behind: the replacement text brings none, and
    none forms where a copied character meets what follows. *)
Lemma replace_go_pt_gone (s : string) (skip : nat) :
  occurs ".pt" (replace_go ".pt" ".onnx" skip s) = false.
Proof.
  revert skip. induction s as [|c s IH]; intros skip; [destruct skip; reflexivity|].
  destruct skip as [|k]; [|apply IH]. cbn [replace_go].
  destruct (startswith ".pt" (String c s)) eqn:E.
  - change (occurs ".pt" (".onnx" +:+ ?x)) with (occurs ".pt" x). apply IH.
  - cbn [occurs]. rewrite IH, orb_false_r, startswith_pt_scan. exact E.
Qed.

End PyStrFacts.

(** With [.pt] at the end only, the derived path has [.onnx] in its place. *)
Lemma derived_output_path_suffix_only (stem : string) :
  PyStr.occurs ".pt" stem = false ->
  derived_output_path (stem +:+ ".pt") = stem +:+ ".onnx".
Proof. apply PyStrFacts.replace_go_pt_suffix. Qed.

(** The derived path contains no [.pt]: a conversion of the batch never adds
    a model file to the tree being walked. *)
Lemma derived_output_path_no_pt (p : string) :
  PyStr.occurs ".pt" (derived_output_path p) = false.
Proof. apply PyStrFacts.replace_go_pt_gone. Qed.

(** Without any [.pt] the derived path is the path itself. *)
Lemma derived_output_path_absent (p : string) :
  PyStr.occurs ".pt" p = false -> derived_output_path p = p.
Proof. apply PyStrFacts.replace_absent. Qed.

(** ** The single-file conversion *)

Lemma convert_returns rt p isz out st :
  errors_only rt -> exists b, (convert_pytorch_to_onnx rt p isz out st).1 = Return b.
Proof.
  intros Heo. all_runs; class_of_raised Heo; try case_exn; eauto.
Qed.

Lemma events_since_app (st st' : state) (new : list event) :
  calls st' = calls st ++ new -> events_since st st' = new.
Proof. intros E. unfold events_since. rewrite E. apply drop_app_length. Qed.

(** The conversion records its entry and then external calls only. *)
Lemma convert_trace rt p isz out st :
  exists new,
    calls (convert_pytorch_to_onnx rt p isz out st).2 = calls st ++ Invoke p isz out :: new /\
    Forall (fun ev => is_invoke ev = false) new.
Proof.
  all_runs; try case_exn; try case_exn; rewrite <- ?app_assoc; cbn;
    (eexists; split; [reflexivity | repeat constructor]).
Qed.

(** A run that returns [True] has made one write, the exporter's. *)
Lemma convert_success_writes rt p isz out st :
  (convert_pytorch_to_onnx rt p isz out st).1 = Return true ->
  exists m x a,
    onnx_export rt m x (resolve_output_path p out) onnx_export_config (files st) = Exported a /\
    files (convert_pytorch_to_onnx rt p isz out st).2 = <[resolve_output_path p out := a]> (files st).
Proof.
  all_runs; try case_exn; try case_exn; try discriminate; intros _; eauto.
Qed.

(** An export takes the resolved output path and the fixed configuration. *)
Lemma convert_export_event rt p isz out st q cfg r :
  Ext (CallExport q cfg) r ∈ events_since st (convert_pytorch_to_onnx rt p isz out st).2 ->
  q = resolve_output_path p out /\ cfg = onnx_export_config.
Proof.
  all_runs; try case_exn; try case_exn; trace_shape; intros Hin.
  all: repeat (apply elem_of_cons in Hin as [Hin|Hin]; [try discriminate Hin|]).
  all: try (by apply elem_of_nil in Hin).
  all: try (inversion Hin; subst; auto).
Qed.

(** The verifier cannot make a run fail: with steps 1 to 4 done, whatever
    error the verification meets is handled inside [verify_onnx]. *)
Lemma verify_onnx_returns rt q st :
  verifier_raises_errors_only rt ->
  (verify_onnx rt q st).1 = Return tt.
Proof.
  intros Hv. cbv [verify_onnx do_import_onnx do_onnx_load do_check_model
    try_except dispatch external print raise ret bind]; cbn.
  repeat case_call; try reflexivity.
  all: match goal with
       | E : import_onnx _ = Raise _ |- _ => pose proof (ve_import_onnx _ Hv _ E) as Hc
       | E : onnx_load _ _ _ = Raise _ |- _ => pose proof (ve_onnx_load _ Hv _ _ _ E) as Hc
       | E : check_model _ _ = Raise _ |- _ => pose proof (ve_check_model _ Hv _ _ E) as Hc
       end.
  all: case_exn; reflexivity.
Qed.

(** ** The batch loops *)

Lemma bind_assoc {A B C} (m : M A) (k : A -> M B) (h : B -> M C) (st : state) :
  bind (bind m k) h st = bind m (fun a => bind (k a) h) st.
Proof. unfold bind. destruct (m st) as [[a|e] st']; reflexivity. Qed.

Lemma bind_ext {A B} (m : M A) (k1 k2 : A -> M B) (st : state) :
  (forall a st', k1 a st' = k2 a st') -> bind m k1 st = bind m k2 st.
Proof. intros E. unfold bind. destruct (m st) as [[a|e] st']; [apply E | reflexivity]. Qed.

(** An iteration of the inner loop is a visit of the entry. *)
Lemma for_files_cons rt isz root f filenames c :
  for_files rt isz root (f :: filenames) c
  = bind (visit rt isz (root, f) c) (for_files rt isz root filenames).
Proof. reflexivity. Qed.

(** The inner loop is the flat loop over the entries of its directory. *)
Lemma for_files_entries rt isz root filenames c st :
  for_files rt isz root filenames c st
  = for_entries rt isz (map (pair root) filenames) c st.
Proof.
  revert c st. induction filenames as [|f fs IH]; intros c st; [reflexivity|].
  rewrite for_files_cons. cbn [map for_entries]. apply bind_ext, IH.
Qed.

Lemma for_entries_app rt isz l1 l2 c st :
  for_entries rt isz (l1 ++ l2) c st
  = bind (for_entries rt isz l1 c) (for_entries rt isz l2) st.
Proof.
  revert c st. induction l1 as [|entry l1 IH]; intros c st; [reflexivity|].
  cbn [app for_entries]. rewrite bind_assoc. apply bind_ext, IH.
Qed.

(** The two nested loops are the flat loop over the entries of the walk. *)
Lemma for_walk_entries rt isz walk c st :
  for_walk rt isz walk c st = for_entries rt isz (walk_entries walk) c st.
Proof.
  revert c st. induction walk as [|[[root dirs] filenames] walk IH]; intros c st;
    [reflexivity|].
  cbn [for_walk walk_entries flat_map]. rewrite for_entries_app.
  unfold bind. rewrite for_files_entries.
  destruct (for_entries rt isz (map (pair root) filenames) c st) as [[c'|e] st'];
    [apply IH | reflexivity].
Qed.

Lemma convert_batch_entries rt isz policy_dir tree st :
  convert_batch rt isz policy_dir tree st
  = for_entries rt isz (walk_entries (os_walk policy_dir tree)) zero_counters st.
Proof. apply for_walk_entries. Qed.

(** A visit of a file that is no model changes nothing. *)
Lemma visit_other rt isz entry c st :
  is_model_file entry = false -> visit rt isz entry c st = (Return c, st).
Proof. unfold visit, is_model_file. intros ->. reflexivity. Qed.

(** A visit of a model file counts it, converts it with no output path, and
    counts the success. *)
Lemma visit_model rt isz entry c st b :
  is_model_file entry = true ->
  (convert_pytorch_to_onnx rt (path_join entry.1 entry.2) isz None
     (add_stdout (banner (path_join entry.1 entry.2)) st)).1 = Return b ->
  visit rt isz entry c st =
    (Return {| success_count := success_count c + (if b then 1 else 0);
               total_count := total_count c + 1 |},
     (convert_pytorch_to_onnx rt (path_join entry.1 entry.2) isz None
        (add_stdout (banner (path_join entry.1 entry.2)) st)).2).
Proof.
  unfold visit, is_model_file. intros -> Hb.
  unfold bind at 1. cbn [print]. unfold bind.
  destruct (convert_pytorch_to_onnx _ _ _ _ _) as [r st']. cbn in Hb. subst r.
  destruct b; unfold ret; cbn [success_count total_count]; [reflexivity|].
  rewrite Z.add_0_r. reflexivity.
Qed.

Lemma filter_not_invoke (new : list event) :
  Forall (fun ev => is_invoke ev = false) new -> List.filter is_invoke new = [].
Proof. induction 1 as [|ev new H _ IH]; [reflexivity|]. cbn. rewrite H. exact IH. Qed.

Lemma filter_length_le {A} (f : A -> bool) (l : list A) :
  (length (List.filter f l) <= length l)%nat.
Proof. induction l as [|x l IH]; cbn; [lia|]. destruct (f x); cbn; lia. Qed.

(** One verdict for each model file of the entries. *)
Lemma verdicts_length rt isz entries st :
  length (verdicts rt isz entries st) = length (List.filter is_model_file entries).
Proof.
  revert st. induction entries as [|entry entries IH]; intros st; [reflexivity|].
  cbn [verdicts List.filter]. unfold is_model_file at 1.
  destruct (PyStr.endswith ".pt" entry.2); cbn; [f_equal|]; apply IH.
Qed.

(** The flat loop never stops early: it returns counters that account for
    every entry, and its trace has one conversion entry for each model file,
    with no output path. *)
Lemma for_entries_run rt isz entries :
  errors_only rt ->
  forall c st, exists c' st' new,
    for_entries rt isz entries c st = (Return c', st') /\
    total_count c' = total_count c + Z.of_nat (length (List.filter is_model_file entries)) /\
    success_count c' = success_count c
      + Z.of_nat (length (List.filter succeeded (verdicts rt isz entries st))) /\
    calls st' = calls st ++ new /\
    List.filter is_invoke new = map (fun p => Invoke p isz None) (model_paths entries).
Proof.
  intros Heo. induction entries as [|entry entries IH]; intros c st.
  - exists c, st, []. cbn. rewrite app_nil_r. repeat split; lia.
  - unfold model_paths in *. cbn [for_entries verdicts List.filter]. unfold bind.
    destruct (is_model_file entry) eqn:Hm.
    + pose proof Hm as Hm'. unfold is_model_file in Hm'. rewrite Hm'.
      set (q := path_join entry.1 entry.2).
      destruct (convert_returns rt q isz None (add_stdout (banner q) st) Heo) as [b Hb].
      rewrite (visit_model rt isz entry c st b Hm Hb). fold q.
      destruct (convert_trace rt q isz None (add_stdout (banner q) st))
        as (new1 & Hc1 & Hn1).
      fold (banner q).
      set (st1 := (convert_pytorch_to_onnx rt q isz None (add_stdout (banner q) st)).2) in *.
      set (c1 := {| success_count := success_count c + (if b then 1 else 0);
                    total_count := total_count c + 1 |}).
      destruct (IH c1 st1) as (c' & st' & new & E & Ht & Hs & Hc & Hi).
      exists c', st', (Invoke q isz None :: new1 ++ new).
      split; [exact E|]. cbn [total_count success_count c1] in *.
      rewrite Hb. cbn [map length List.filter succeeded].
      repeat split.
      * lia.
      * destruct b; cbn [length]; lia.
      * rewrite Hc, Hc1. cbn. rewrite <- app_assoc. reflexivity.
      * cbn. rewrite List.filter_app, filter_not_invoke by assumption.
        cbn. f_equal. exact Hi.
    + pose proof Hm as Hm'. unfold is_model_file in Hm'. rewrite Hm'.
      rewrite (visit_other rt isz entry c st Hm).
      destruct (IH c st) as (c' & st' & new & -> & Ht & Hs & Hc & Hi).
      exists c', st', new. auto.
Qed.

(** ** The walk of the directory tree *)

(** Induction on a directory tree, with the property known of every
    subdirectory. *)
Lemma dir_tree_nested_ind (P : dir_tree -> Prop) :
  (forall filenames subdirs,
      Forall (fun sub => P sub.2) subdirs -> P (DirNode filenames subdirs)) ->
  forall t, P t.
Proof.
  intros step. fix IH 1. intros [filenames subdirs]. apply step.
  induction subdirs as [|[d t'] subdirs IHs]; constructor; [apply IH | exact IHs].
Qed.

Lemma model_paths_app (l1 l2 : list (string * string)) :
  model_paths (l1 ++ l2) = model_paths l1 ++ model_paths l2.
Proof. unfold model_paths. rewrite List.filter_app, map_app. reflexivity. Qed.

Lemma model_paths_directory (root : string) (filenames : list string) :
  model_paths (map (pair root) filenames)
  = map (path_join root) (List.filter (PyStr.endswith ".pt") filenames).
Proof.
  unfold model_paths. induction filenames as [|f fs IH]; [reflexivity|].
  cbn [map List.filter]. unfold is_model_file at 1. cbn [snd].
  destruct (PyStr.endswith ".pt" f); cbn [map fst snd]; [f_equal|]; exact IH.
Qed.

Lemma walk_entries_app (w1 w2 : list (string * list string * list string)) :
  walk_entries (w1 ++ w2) = walk_entries w1 ++ walk_entries w2.
Proof. unfold walk_entries. apply flat_map_app. Qed.

(** The loops over [os.walk] meet the model files of the tree, each one as
    often as the tree lists it. *)
Lemma model_paths_walk (t : dir_tree) (top : string) :
  model_paths (walk_entries (os_walk top t)) = model_files_under top t.
Proof.
  revert top. induction t as [filenames subdirs IH] using dir_tree_nested_ind.
  intros top. cbn [os_walk model_files_under].
  change (walk_entries (?x :: ?w)) with
    ((let '(root, _, fns) := x in map (pair root) fns) ++ walk_entries w).
  cbn beta iota. rewrite model_paths_app, model_paths_directory. f_equal.
  induction IH as [|[d t'] subdirs Ht _ IHs]; [reflexivity|].
  cbn [flat_map]. rewrite walk_entries_app, model_paths_app, IHs. f_equal.
  apply Ht.
Qed.

(** The run on a path that does not exist. *)
Lemma convert_not_found rt p isz out st :
  files st !! p = None ->
  convert_pytorch_to_onnx rt p isz out st
  = (Return false,
     add_stdout ("Error: Model file " +:+ p +:+ " not found")
       (add_event (Invoke p isz out) st)).
Proof.
  intros Hp. unfold_script; cbn. rewrite Hp.
  case_bool_decide as Hs; [destruct Hs; discriminate|]. reflexivity.
Qed.

(** ** The scenarios *)

Lemma engine_errors_only export import check :
  (forall p l e, export p = ExportFailed l e -> is_Exception e = true) ->
  (forall e, import = Raise e -> is_Exception e = true) ->
  (forall e, check = Raise e -> is_Exception e = true) ->
  errors_only (Scenario.engine export import check).
Proof.
  intros He Hi Hc. split; cbn; intros; repeat case_decide; try case_match;
    simplify_eq; eauto.
Qed.

Lemma rt_ok_errors_only : errors_only Scenario.rt_ok.
Proof. apply engine_errors_only; intros; discriminate. Qed.

Lemma rt_check_fails_errors_only : errors_only Scenario.rt_check_fails.
Proof. apply engine_errors_only; intros; simplify_eq; reflexivity. Qed.

Lemma rt_check_fails_verifier : verifier_raises_errors_only Scenario.rt_check_fails.
Proof. destruct rt_check_fails_errors_only. split; assumption. Qed.

Lemma go2_steps_succeed :
  steps_1_to_4_succeed Scenario.rt_check_fails "policy/go2/policy.pt" None None Scenario.st_go2.
Proof.
  split; [eexists; reflexivity|].
  exists 48, 48, [1; 48], [1; 12], "torch.Size([1, 12])", "ONNX".
  repeat split; reflexivity.
Qed.

(** ** The claims *)




(** C3. When steps 1 to 4 succeed, the conversion returns [True] whatever
    the verification does: the [onnx] package missing ([ImportError]) and a
    load or check that raises an error are both handled inside the
    verification step. *)
Theorem verification_never_fails_conversion rt p isz out st :
  steps_1_to_4_succeed rt p isz out st ->
  verifier_raises_errors_only rt ->
  (convert_pytorch_to_onnx rt p isz out st).1 = Return true.
Proof.
  intros (Hp & m & m' & x & y & sh & a & E1 & E2 & E3 & E4 & E5 & E6) Hv.
  cbv [convert_pytorch_to_onnx convert_body resolve_input_size
       torch_jit_load model_eval torch_randn model_call get_output_shape
       torch_onnx_export try_except dispatch external enter os_path_exists
       print raise ret bind]; cbn.
  case_bool_decide; [|contradiction]. cbn.
  rewrite E1; cbn. rewrite E2; cbn.
  destruct isz as [n|]; cbn in E3 |- *; rewrite E3; cbn; rewrite E4; cbn;
    rewrite E5; cbn; rewrite E6; cbn.
  all: match goal with |- context [verify_onnx ?r ?q ?s] =>
         pose proof (verify_onnx_returns r q s Hv) as V;
         destruct (verify_onnx r q s) as [v s']
       end; cbn in V; subst v; reflexivity.
Qed.

Lemma verification_never_fails_conversion_witness :
  steps_1_to_4_succeed Scenario.rt_check_fails "policy/go2/policy.pt" None None
    Scenario.st_go2 /\
  verifier_raises_errors_only Scenario.rt_check_fails /\
  (convert_pytorch_to_onnx Scenario.rt_check_fails "policy/go2/policy.pt" None None
     Scenario.st_go2).1 = Return true.
Proof.
  split; [exact go2_steps_succeed|]. split; [exact rt_check_fails_verifier|].
  apply (verification_never_fails_conversion Scenario.rt_check_fails
           "policy/go2/policy.pt" None None Scenario.st_go2).
  - exact go2_steps_succeed.
  - exact rt_check_fails_verifier.
Defined.

(** The two verification outcomes of the specification's tests: the [onnx]
    package missing, and the checker raising. Both runs print their warning
    and return [True]. *)
Example verification_warning_runs :
  (let r := convert_pytorch_to_onnx Scenario.rt_no_onnx "policy/go2/policy.pt" None None
              Scenario.st_go2 in
   r.1 = Return true /\
   last (stdout r.2) = Some "You can install it with: pip install onnx" /\
   last (calls r.2)
     = Some (Ext CallImportOnnx (Some (ImportError "No module named 'onnx'")))) /\
  (let r := convert_pytorch_to_onnx Scenario.rt_check_fails "policy/go2/policy.pt" None None
              Scenario.st_go2 in
   r.1 = Return true /\
   last (stdout r.2) = Some "Model was still exported successfully").
Proof. repeat split; vm_compute; reflexivity. Qed.

(** C10. When the source path contains no [.pt] and no output path is
    given, the derived output path is the source path itself, and a run that
    returns [True] has put the exporter's artifact at that path, in the place
    of the model it loaded. *)
Theorem convert_without_pt_overwrites_source rt p isz st :
  PyStr.occurs ".pt" p = false ->
  (convert_pytorch_to_onnx rt p isz None st).1 = Return true ->
  resolve_output_path p None = p /\
  is_Some (files st !! p) /\
  exists m x a,
    onnx_export rt m x p onnx_export_config (files st) = Exported a /\
    files (convert_pytorch_to_onnx rt p isz None st).2 = <[p := a]> (files st) /\
    files (convert_pytorch_to_onnx rt p isz None st).2 !! p = Some a.
Proof.
  intros Habs Hok.
  assert (resolve_output_path p None = p) as Hp by exact (derived_output_path_absent p Habs).
  split; [exact Hp|]. split.
  - destruct (files st !! p) eqn:E; [eauto|].
    rewrite (convert_not_found rt p isz None st E) in Hok. discriminate Hok.
  - destruct (convert_success_writes rt p isz None st Hok) as (m & x & a & Hx & Hw).
    rewrite Hp in Hx, Hw. exists m, x, a. split; [exact Hx|]. split; [exact Hw|].
    rewrite Hw. apply lookup_insert_eq.
Qed.

Lemma convert_without_pt_overwrites_source_witness :
  PyStr.occurs ".pt" "policy/go2/policy" = false /\
  (convert_pytorch_to_onnx Scenario.rt_ok "policy/go2/policy" None None
     Scenario.st_no_ext).1 = Return true /\
  resolve_output_path "policy/go2/policy" None = "policy/go2/policy" /\
  is_Some (files Scenario.st_no_ext !! "policy/go2/policy") /\
  exists m x a,
    onnx_export Scenario.rt_ok m x "policy/go2/policy" onnx_export_config
      (files Scenario.st_no_ext) = Exported a /\
    files (convert_pytorch_to_onnx Scenario.rt_ok "policy/go2/policy" None None
             Scenario.st_no_ext).2 = <["policy/go2/policy" := a]> (files Scenario.st_no_ext) /\
    files (convert_pytorch_to_onnx Scenario.rt_ok "policy/go2/policy" None None
             Scenario.st_no_ext).2 !! "policy/go2/policy" = Some a.
Proof.
  split; [reflexivity|]. split; [reflexivity|].
  apply (convert_without_pt_overwrites_source Scenario.rt_ok "policy/go2/policy"
           None Scenario.st_no_ext); reflexivity.
Defined.

(** The run of the scenario without extension: the model file now holds the
    exported artifact. *)
Example no_extension_run :
  files Scenario.st_no_ext !! "policy/go2/policy" = Some "TS48" /\
  files (convert_pytorch_to_onnx Scenario.rt_ok "policy/go2/policy" None None
           Scenario.st_no_ext).2 !! "policy/go2/policy" = Some "ONNX".
Proof. split; reflexivity. Qed.

(** C1. The derived output path is [model_path.replace('.pt', '.onnx')],
    which rewrites every [.pt] of the path and not the extension alone: for
    [policy/go2.pt/policy.pt] the extension swap of the data model gives
    [policy/go2.pt/policy.onnx], but the conversion derives, and exports to,
    [policy/go2.onnx/policy.onnx]. On the path of the specification's example
    the two agree. *)
Theorem derived_output_path_rewrites_directory :
  spec_swap_extension "policy/go2.pt/policy.pt" = Some "policy/go2.pt/policy.onnx" /\
  derived_output_path "policy/go2.pt/policy.pt" = "policy/go2.onnx/policy.onnx" /\
  (let r := convert_pytorch_to_onnx Scenario.rt_ok "policy/go2.pt/policy.pt" None None
              Scenario.st_nested in
   r.1 = Return true /\
   files r.2 !! "policy/go2.onnx/policy.onnx" = Some "ONNX" /\
   files r.2 !! "policy/go2.pt/policy.onnx" = None) /\
  derived_output_path "policy/go2/policy.pt" = "policy/go2/policy.onnx".
Proof. repeat split; vm_compute; reflexivity. Qed.






(** A run that fails in step 3: the forward pass rejects width 45, the export is
    never reached. *)
Example shape_mismatch_run :
  let r := convert_pytorch_to_onnx Scenario.rt_ok "policy/go2/policy.pt" (Some 45) None
             Scenario.st_go2 in
  r.1 = Return false /\
  events_since Scenario.st_go2 r.2 =
    [ Invoke "policy/go2/policy.pt" (Some 45) None;
      Ext (CallJitLoad "policy/go2/policy.pt") None;
      Ext CallEval None;
      Ext (CallRandn [1; 45]) None;
      Ext CallForward (Some (OtherException "mat1 and mat2 shapes cannot be multiplied")) ] /\
  last (stdout r.2)
    = Some "Error during conversion: mat1 and mat2 shapes cannot be multiplied" /\
  files r.2 = files Scenario.st_go2.
Proof. repeat split; vm_compute; reflexivity. Qed.




(** C4. With collaborators that raise errors only, the batch goes through
    every entry of the walk, a failed conversion included: it returns
    counters whose total is the number of model files of the tree and whose
    success count is the number of conversions that returned [True]. At every
    point between two entries the counters so far satisfy
    [0 <= success_count <= total_count], and the batch goes on from there
    with the remaining entries. *)
Theorem batch_counters rt isz policy_dir tree st :
  errors_only rt ->
  let entries := walk_entries (os_walk policy_dir tree) in
  (exists c st',
     convert_batch rt isz policy_dir tree st = (Return c, st') /\
     total_count c = Z.of_nat (length (model_files_under policy_dir tree)) /\
     success_count c
       = Z.of_nat (length (List.filter succeeded (verdicts rt isz entries st)))) /\
  (forall processed remaining, entries = processed ++ remaining ->
     exists c st',
       for_entries rt isz processed zero_counters st = (Return c, st') /\
       convert_batch rt isz policy_dir tree st = for_entries rt isz remaining c st' /\
       0 <= success_count c <= total_count c).
Proof.
  intros Heo entries. split.
  - destruct (for_entries_run rt isz entries Heo zero_counters st)
      as (c & st' & new & E & Ht & Hs & _ & _).
    exists c, st'. rewrite convert_batch_entries. split; [exact E|].
    cbn in Ht, Hs. split; [|exact Hs].
    rewrite Ht, <- model_paths_walk. unfold model_paths. rewrite length_map. reflexivity.
  - intros processed remaining Hsplit.
    destruct (for_entries_run rt isz processed Heo zero_counters st)
      as (c & st' & new & E & Ht & Hs & _ & _).
    exists c, st'. split; [exact E|]. split.
    + rewrite convert_batch_entries. fold entries. rewrite Hsplit, for_entries_app.
      unfold bind. rewrite E. reflexivity.
    + cbn in Ht, Hs. rewrite Ht, Hs.
      pose proof (filter_length_le succeeded (verdicts rt isz processed st)) as Hle.
      rewrite verdicts_length in Hle. lia.
Qed.

Lemma batch_counters_witness :
  errors_only Scenario.rt_ok /\
  let entries := walk_entries (os_walk "policy" Scenario.tree_batch) in
  (exists c st',
     convert_batch Scenario.rt_ok None "policy" Scenario.tree_batch Scenario.st_batch
       = (Return c, st') /\
     total_count c = Z.of_nat (length (model_files_under "policy" Scenario.tree_batch)) /\
     success_count c
       = Z.of_nat (length (List.filter succeeded
                             (verdicts Scenario.rt_ok None entries Scenario.st_batch)))) /\
  (forall processed remaining, entries = processed ++ remaining ->
     exists c st',
       for_entries Scenario.rt_ok None processed zero_counters Scenario.st_batch
         = (Return c, st') /\
       convert_batch Scenario.rt_ok None "policy" Scenario.tree_batch Scenario.st_batch
         = for_entries Scenario.rt_ok None remaining c st' /\
       0 <= success_count c <= total_count c).
Proof.
  split; [exact rt_ok_errors_only|].
  apply (batch_counters Scenario.rt_ok None "policy" Scenario.tree_batch Scenario.st_batch).
  exact rt_ok_errors_only.
Defined.

(** The batch of the specification's example: three model files, of which
    the one of width 45 fails the forward pass at the default width 48. *)
Example batch_counting_run :
  (convert_batch Scenario.rt_ok None "policy" Scenario.tree_batch Scenario.st_batch).1
    = Return {| success_count := 2; total_count := 3 |} /\
  verdicts Scenario.rt_ok None (walk_entries (os_walk "policy" Scenario.tree_batch))
    Scenario.st_batch = [Return true; Return false; Return true] /\
  model_files_under "policy" Scenario.tree_batch
    = ["policy/a.pt"; "policy/b.pt"; "policy/sub/c.pt"].
Proof. repeat split; vm_compute; reflexivity. Qed.

(** A batch run of [main] is the batch loops followed by the summary. *)
Lemma main_batch_run rt sd tree a st :
  batch_convert a = true ->
  is_Some (files st !! path_join sd "policy") ->
  main rt sd tree a st
  = bind (convert_batch rt (input_size a) (path_join sd "policy") tree)
      (fun c => print (summary_line c)) st.
Proof.
  intros Hb Hd. unfold main. rewrite Hb. unfold bind at 1, os_path_exists.
  rewrite bool_decide_eq_true_2 by exact Hd. reflexivity.
Qed.



(** *** The command line *)


(** The only error exit of the parser is that of status 2. *)
Lemma parse_go_error argv :
  forall pend acc e, parse_go argv pend acc = Some (Raise e) -> e = SystemExit 2.
Proof.
  induction argv as [|t rest IH]; intros pend acc e H; cbn [parse_go] in H.
  - destruct pend; unfold finish, usage_error in H; repeat case_match;
      simplify_eq; reflexivity.
  - destruct pend; unfold usage_error in H; repeat case_match; simplify_eq;
      first [reflexivity | eapply IH; eassumption].
Qed.







(** Command lines and how the process ends on them: a conversion that
    succeeds, one whose source is missing, the batch of three with one
    failure, and four that the parser refuses. *)
Example exit_status_runs :
  let ends argv st :=
    option_map (fun run => exit_status (run st).1)
      (run_main Scenario.rt_ok "" Scenario.tree_batch argv) in
  ends ["policy/go2/policy.pt"; "--input_size"; "48"] Scenario.st_go2 = Some (Exited 0) /\
  ends ["policy/go2/policy.pt"] Scenario.st_batch = Some (Exited 1) /\
  ends ["--batch_convert"; "x"] Scenario.st_batch = Some (Exited 0) /\
  ends ["--batch_convert"] Scenario.st_batch = Some (Exited 2) /\
  ends ["a.pt"; "b.pt"] Scenario.st_batch = Some (Exited 2) /\
  ends ["a.pt"; "--input_size"] Scenario.st_batch = Some (Exited 2) /\
  ends ["a.pt"; "--output_path"; "--batch_convert"] Scenario.st_batch = Some (Exited 2) /\
  last (stdout (main Scenario.rt_ok "" Scenario.tree_batch Scenario.args_batch
                  Scenario.st_batch).2)
    = Some (nl +:+ "Batch conversion completed: 2/3 models converted successfully").
Proof. repeat split; vm_compute; reflexivity. Qed.

(** ** Further properties of the derived output path *)

Module PathFacts.
Import PyStr PyStrFacts.

Lemma app_assoc_s (a b c : string) : (a +:+ b) +:+ c = a +:+ (b +:+ c).
Proof. induction a as [|x a IH]; [reflexivity|]. rewrite !app_cons, IH. reflexivity. Qed.

Lemma app_nil_r_s (a : string) : a +:+ "" = a.
Proof. induction a as [|x a IH]; [reflexivity|]. rewrite app_cons, IH. reflexivity. Qed.

Lemma rev_app_acc (s acc : string) : String.rev_app s acc = String.rev s +:+ acc.
Proof.
  unfold String.rev. revert acc. induction s as [|x s IH]; intros acc; [reflexivity|].
  cbn [String.rev_app]. rewrite (IH (String x "")), IH, app_assoc_s. reflexivity.
Qed.

Lemma rev_cons (x : ascii) (s : string) : String.rev (String x s) = String.rev s +:+ String x "".
Proof. unfold String.rev at 1. cbn [String.rev_app]. apply rev_app_acc. Qed.

Lemma rev_app_s (a b : string) : String.rev (a +:+ b) = String.rev b +:+ String.rev a.
Proof.
  induction a as [|x a IH]; [cbn; rewrite app_nil_r_s; reflexivity|].
  rewrite app_cons, !rev_cons, IH, app_assoc_s. reflexivity.
Qed.

Lemma rev_involutive (s : string) : String.rev (String.rev s) = s.
Proof.
  induction s as [|x s IH]; [reflexivity|]. rewrite rev_cons, rev_app_s, IH. reflexivity.
Qed.

Lemma startswith_inv (p s : string) :
  startswith p s = true -> exists t, s = p +:+ t.
Proof.
  revert s. induction p as [|a p IH]; intros s H; [exists s; reflexivity|].
  destruct s as [|b s]; [discriminate H|]. cbn [startswith] in H.
  case_decide; [|discriminate H]. subst b.
  destruct (IH s H) as [t ->]. exists t. reflexivity.
Qed.

(** [s.endswith(p)] holds exactly of the strings that end with [p]. *)
Lemma endswith_inv (p s : string) :
  endswith p s = true -> exists stem, s = stem +:+ p.
Proof.
  unfold endswith. intros H. apply startswith_inv in H as [t Ht].
  exists (String.rev t). rewrite <- (rev_involutive s), Ht, rev_app_s, rev_involutive.
  reflexivity.
Qed.

Lemma endswith_app (p stem : string) : endswith p (stem +:+ p) = true.
Proof. unfold endswith. rewrite rev_app_s. apply startswith_app. Qed.

Lemma occurs_app_r (p pre s : string) : occurs p s = true -> occurs p (pre +:+ s) = true.
Proof.
  intros H. induction pre as [|x pre IH]; [exact H|].
  rewrite app_cons. cbn [occurs]. rewrite IH. apply orb_true_r.
Qed.

Lemma occurs_self (p t : string) : occurs p (p +:+ t) = true.
Proof.
  destruct p as [|a p]; [destruct t; reflexivity|].
  rewrite app_cons. cbn [occurs]. rewrite <- app_cons, startswith_app. reflexivity.
Qed.

Lemma endswith_occurs (p s : string) : endswith p s = true -> occurs p s = true.
Proof.
  intros H. apply endswith_inv in H as [stem ->].
  apply occurs_app_r. rewrite <- (app_nil_r_s p) at 2. apply occurs_self.
Qed.

(** The path of a file of the walk ends as its name does. *)
Lemma occurs_path_join (p root f : string) :
  occurs p f = true -> occurs p (path_join root f) = true.
Proof.
  intros H. unfold path_join. repeat case_match; try exact H.
  - apply occurs_app_r, H.
  - apply occurs_app_r, occurs_app_r, H.
Qed.

End PathFacts.

(** X1. When [.pt] occurs in the source path as its suffix only, the derived
    output path is the path with that suffix replaced by [.onnx]: the stem is
    copied unchanged. *)
Theorem derived_output_path_swaps_suffix (stem : string) :
  PyStr.occurs ".pt" stem = false ->
  PyStr.endswith ".pt" (stem +:+ ".pt") = true /\
  derived_output_path (stem +:+ ".pt") = stem +:+ ".onnx" /\
  PyStr.endswith ".onnx" (derived_output_path (stem +:+ ".pt")) = true.
Proof.
  intros H. split; [apply PathFacts.endswith_app|].
  rewrite (PyStrFacts.replace_go_pt_suffix stem H : derived_output_path _ = _).
  split; [reflexivity | apply PathFacts.endswith_app].
Qed.

Lemma derived_output_path_swaps_suffix_witness :
  PyStr.occurs ".pt" "policy/g1/policy" = false /\
  PyStr.endswith ".pt" ("policy/g1/policy" +:+ ".pt") = true /\
  derived_output_path ("policy/g1/policy" +:+ ".pt") = "policy/g1/policy" +:+ ".onnx" /\
  PyStr.endswith ".onnx" (derived_output_path ("policy/g1/policy" +:+ ".pt")) = true.
Proof.
  split; [reflexivity|].
  apply (derived_output_path_swaps_suffix "policy/g1/policy"). reflexivity.
Defined.

(** X2. The derived output path never contains [.pt], so it does not end
    with it and the batch takes no exported file for a model; deriving again
    changes nothing; and the derived path is the source path itself exactly
    when the source path contains no [.pt]. *)
Theorem derived_output_path_fixed_iff (p : string) :
  PyStr.occurs ".pt" (derived_output_path p) = false /\
  PyStr.endswith ".pt" (derived_output_path p) = false /\
  derived_output_path (derived_output_path p) = derived_output_path p /\
  (derived_output_path p = p <-> PyStr.occurs ".pt" p = false).
Proof.
  pose proof (PyStrFacts.replace_go_pt_gone p 0 : PyStr.occurs ".pt" (derived_output_path p) = false)
    as Hgone.
  split; [exact Hgone|]. split; [|split].
  - destruct (PyStr.endswith ".pt" (derived_output_path p)) eqn:E; [|reflexivity].
    apply PathFacts.endswith_occurs in E. rewrite E in Hgone. discriminate Hgone.
  - apply PyStrFacts.replace_absent, Hgone.
  - split; [intros E; rewrite <- E; exact Hgone | apply PyStrFacts.replace_absent].
Qed.

(** ** Further properties of the single-file conversion *)

(** X4. With no output path given, a conversion whose source path contains
    [.pt] never hands that path to the exporter: every export call of the run
    goes to the derived path, which differs from the source path and
    contains no [.pt]. *)
Theorem source_with_pt_is_not_exported_to rt p isz st q cfg r :
  PyStr.occurs ".pt" p = true ->
  Ext (CallExport q cfg) r ∈ events_since st (convert_pytorch_to_onnx rt p isz None st).2 ->
  q = derived_output_path p /\ q <> p /\ PyStr.occurs ".pt" q = false.
Proof.
  intros Hp Hin. apply convert_export_event in Hin as [-> _].
  pose proof (PyStrFacts.replace_go_pt_gone p 0) as Hgone.
  change (PyStr.occurs ".pt" (derived_output_path p) = false) in Hgone.
  change (resolve_output_path p None) with (derived_output_path p).
  split; [reflexivity|]. split; [|exact Hgone].
  intros E. rewrite E, Hp in Hgone. discriminate Hgone.
Qed.

Lemma source_with_pt_is_not_exported_to_witness :
  PyStr.occurs ".pt" "policy/go2/policy.pt" = true /\
  Ext (CallExport "policy/go2/policy.onnx" onnx_export_config) None
    ∈ events_since Scenario.st_go2
        (convert_pytorch_to_onnx Scenario.rt_ok "policy/go2/policy.pt" None None
           Scenario.st_go2).2 /\
  "policy/go2/policy.onnx" = derived_output_path "policy/go2/policy.pt" /\
  "policy/go2/policy.onnx" <> "policy/go2/policy.pt" /\
  PyStr.occurs ".pt" "policy/go2/policy.onnx" = false.
Proof.
  assert (Ext (CallExport "policy/go2/policy.onnx" onnx_export_config) None
            ∈ events_since Scenario.st_go2
                (convert_pytorch_to_onnx Scenario.rt_ok "policy/go2/policy.pt" None None
                   Scenario.st_go2).2) as Hin by (vm_compute; repeat constructor).
  split; [reflexivity|]. split; [exact Hin|].
  exact (source_with_pt_is_not_exported_to Scenario.rt_ok "policy/go2/policy.pt" None
           Scenario.st_go2 _ _ _ eq_refl Hin).
Defined.

(** X5. The trace of a conversion starts with its entry; its external calls
    are an initial part of the fixed sequence load, eval, randn at
    [[1; input_size]], forward, shape, export, import, load of the exported
    path, check, each made at most once and none retried; and every call but
    the last returned. *)
Theorem conversion_follows_pipeline rt p isz out st :
  let evs := events_since st (convert_pytorch_to_onnx rt p isz out st).2 in
  head evs = Some (Invoke p isz out) /\
  ext_calls evs `prefix_of` pipeline p isz out /\
  Forall returned (removelast evs).
Proof.
  intros evs. subst evs.
  all_runs; try case_exn; try case_exn; trace_shape.
  all: split; [reflexivity|]; split; [eexists; reflexivity | repeat constructor].
Qed.




(** X7. The verification loads the resolved output path, and only after the
    exporter has returned: what [onnx.load] is asked for is that path on the
    filesystem that holds the exporter's artifact there. *)
Theorem verification_loads_the_export rt p isz out st q r :
  Ext (CallOnnxLoad q) r ∈ events_since st (convert_pytorch_to_onnx rt p isz out st).2 ->
  q = resolve_output_path p out /\
  exists m x a,
    onnx_export rt m x q onnx_export_config (files st) = Exported a /\
    r = raised_by (onnx_load rt q (<[q := a]> (files st))).
Proof.
  all_runs; try case_exn; try case_exn; trace_shape; intros Hin.
  all: repeat (apply elem_of_cons in Hin as [Hin|Hin]; [try discriminate Hin|]).
  all: try (by apply elem_of_nil in Hin).
  all: injection Hin as -> ->; split; [reflexivity|].
  all: do 3 eexists; split; [eassumption|].
  all: match goal with E : onnx_load _ _ _ = _ |- _ => rewrite E end; reflexivity.
Qed.

Lemma verification_loads_the_export_witness :
  Ext (CallOnnxLoad "policy/go2/policy.onnx") None
    ∈ events_since Scenario.st_go2
        (convert_pytorch_to_onnx Scenario.rt_ok "policy/go2/policy.pt" None None
           Scenario.st_go2).2 /\
  "policy/go2/policy.onnx" = resolve_output_path "policy/go2/policy.pt" None /\
  exists m x a,
    onnx_export Scenario.rt_ok m x "policy/go2/policy.onnx" onnx_export_config
      (files Scenario.st_go2) = Exported a /\
    None = raised_by (onnx_load Scenario.rt_ok "policy/go2/policy.onnx"
                        (<["policy/go2/policy.onnx" := a]> (files Scenario.st_go2))).
Proof.
  assert (Ext (CallOnnxLoad "policy/go2/policy.onnx") None
            ∈ events_since Scenario.st_go2
                (convert_pytorch_to_onnx Scenario.rt_ok "policy/go2/policy.pt" None None
                   Scenario.st_go2).2) as Hin by (vm_compute; repeat constructor).
  split; [exact Hin|].
  exact (verification_loads_the_export Scenario.rt_ok "policy/go2/policy.pt" None None
           Scenario.st_go2 _ _ Hin).
Defined.

(** X8. The last [print] call tells the result: the text of the last call
    of a conversion that returns [False] begins with [Error], that of one
    that returns [True] is one of the three closing texts of the
    verification, none of which begins with [Error]. *)
Theorem last_print_tells_result rt p isz out st :
  let r := convert_pytorch_to_onnx rt p isz out st in
  (r.1 = Return false -> exists cause, last (stdout r.2) = Some ("Error" +:+ cause)) /\
  (r.1 = Return true -> exists text, text ∈ success_endings /\ last (stdout r.2) = Some text) /\
  (forall text cause, text ∈ success_endings -> text <> "Error" +:+ cause).
Proof.
  intros r. subst r. split; [|split].
  - all_runs; try case_exn; try case_exn; try discriminate; intros _.
    all: eexists; rewrite last_snoc; reflexivity.
  - all_runs; try case_exn; try case_exn; try discriminate; intros _.
    all: eexists; rewrite last_snoc; split; [|reflexivity].
    all: unfold success_endings; repeat constructor.
  - intros text cause Hin.
    unfold success_endings in Hin.
    repeat (apply elem_of_cons in Hin as [-> | Hin]; [discriminate|]).
    by apply elem_of_nil in Hin.
Qed.

(** ** Further properties of the batch *)

(** A visit of a model file is its banner and its conversion: the state is
    the conversion's, and an exception of the conversion goes on. *)
Lemma visit_model_outcome rt isz entry c st :
  is_model_file entry = true ->
  let r := convert_pytorch_to_onnx rt (path_join entry.1 entry.2) isz None
             (add_stdout (banner (path_join entry.1 entry.2)) st) in
  visit rt isz entry c st =
    (match r.1 with
     | Return b => Return {| success_count := success_count c + (if b then 1 else 0);
                             total_count := total_count c + 1 |}
     | Raise e => Raise e
     end, r.2).
Proof.
  intros Hm r. destruct r.1 as [b|e] eqn:Hr.
  - apply (visit_model rt isz entry c st b Hm Hr).
  - subst r. unfold visit, is_model_file in *. rewrite Hm.
    unfold bind at 1. cbn [print]. unfold bind.
    destruct (convert_pytorch_to_onnx _ _ _ _ _) as [o st']. cbn in Hr. subst o. reflexivity.
Qed.

(** Without a model file among the entries the loop does nothing. *)
Lemma for_entries_no_models rt isz entries c st :
  List.filter is_model_file entries = [] ->
  for_entries rt isz entries c st = (Return c, st).
Proof.
  revert c st. induction entries as [|entry entries IH]; intros c st H; [reflexivity|].
  cbn [List.filter] in H. destruct (is_model_file entry) eqn:Hm; [discriminate H|].
  cbn [for_entries]. unfold bind. rewrite (visit_other rt isz entry c st Hm). apply IH, H.
Qed.


(** X9. A batch over a tree without model files calls no collaborator and
    changes nothing; [main] then prints the summary [0/0] and returns, for
    status 0. *)
Theorem batch_without_models rt sd tree a st :
  batch_convert a = true ->
  is_Some (files st !! path_join sd "policy") ->
  model_files_under (path_join sd "policy") tree = [] ->
  convert_batch rt (input_size a) (path_join sd "policy") tree st = (Return zero_counters, st) /\
  main rt sd tree a st
    = (Return tt,
       add_stdout (nl +:+ "Batch conversion completed: 0/0 models converted successfully") st).
Proof.
  intros Hb Hd Hnone.
  assert (convert_batch rt (input_size a) (path_join sd "policy") tree st
          = (Return zero_counters, st)) as E.
  { rewrite convert_batch_entries. apply for_entries_no_models.
    rewrite <- model_paths_walk in Hnone. unfold model_paths in Hnone.
    destruct (List.filter _ _); [reflexivity | discriminate Hnone]. }
  split; [exact E|].
  rewrite (main_batch_run rt sd tree a st Hb Hd). unfold bind. rewrite E. reflexivity.
Qed.

Lemma batch_without_models_witness :
  batch_convert Scenario.args_batch = true /\
  is_Some (files Scenario.st_batch !! path_join "" "policy") /\
  model_files_under (path_join "" "policy") Interrupts.tree_no_models = [] /\
  convert_batch Scenario.rt_ok (input_size Scenario.args_batch) (path_join "" "policy")
    Interrupts.tree_no_models Scenario.st_batch = (Return zero_counters, Scenario.st_batch) /\
  main Scenario.rt_ok "" Interrupts.tree_no_models Scenario.args_batch Scenario.st_batch
    = (Return tt,
       add_stdout (nl +:+ "Batch conversion completed: 0/0 models converted successfully")
         Scenario.st_batch).
Proof.
  split; [reflexivity|]. split; [eexists; reflexivity|]. split; [reflexivity|].
  apply (batch_without_models Scenario.rt_ok "" Interrupts.tree_no_models
           Scenario.args_batch Scenario.st_batch).
  - reflexivity.
  - eexists; reflexivity.
  - reflexivity.
Defined.

(** The model files of a tree have [.pt] in their paths. *)
Lemma model_files_have_pt top tree p :
  p ∈ model_files_under top tree -> PyStr.occurs ".pt" p = true.
Proof.
  rewrite <- model_paths_walk. unfold model_paths. intros Hin.
  apply list_elem_of_In, in_map_iff in Hin as (entry & <- & Hin).
  apply filter_In in Hin as [_ Hm].
  apply PathFacts.occurs_path_join, PathFacts.endswith_occurs, Hm.
Qed.

(** Every export call of the loop goes to the derived path of one of the
    model files among the entries, whatever the collaborators do and however
    the loop ends. *)
Lemma for_entries_exports rt isz entries :
  forall c st, exists new,
    calls (for_entries rt isz entries c st).2 = calls st ++ new /\
    forall q cfg r, Ext (CallExport q cfg) r ∈ new ->
      exists p, p ∈ model_paths entries /\ q = derived_output_path p.
Proof.
  induction entries as [|entry entries IH]; intros c st.
  - exists []. cbn. rewrite app_nil_r. split; [reflexivity|].
    intros q cfg r Hin. by apply elem_of_nil in Hin.
  - cbn [for_entries]. unfold bind, model_paths. cbn [List.filter].
    destruct (is_model_file entry) eqn:Hm.
    + rewrite (visit_model_outcome rt isz entry c st Hm).
      set (q0 := path_join entry.1 entry.2).
      set (st0 := add_stdout (banner q0) st).
      destruct (convert_trace rt q0 isz None st0) as (new1 & Hc1 & _).
      assert (forall q cfg r, Ext (CallExport q cfg) r ∈ Invoke q0 isz None :: new1 ->
                q = derived_output_path q0) as Hexp.
      { intros q cfg r Hin.
        rewrite <- (events_since_app st0 _ _ Hc1) in Hin.
        apply convert_export_event in Hin as [-> _]. reflexivity. }
      change (calls st0) with (calls st) in Hc1.
      destruct ((convert_pytorch_to_onnx rt q0 isz None st0).1) as [b|e].
      * match goal with |- context [for_entries rt isz entries ?c1 ?s1] =>
          destruct (IH c1 s1) as (new & Hc & Hn) end.
        exists ((Invoke q0 isz None :: new1) ++ new). split.
        { rewrite Hc, Hc1, <- app_assoc. reflexivity. }
        intros q cfg r Hin. apply elem_of_app in Hin as [Hin|Hin].
        -- exists q0. split; [cbn; apply list_elem_of_here | exact (Hexp q cfg r Hin)].
        -- destruct (Hn q cfg r Hin) as (p & Hp & ->). exists p.
           split; [cbn; apply list_elem_of_further; exact Hp | reflexivity].
      * exists (Invoke q0 isz None :: new1). split; [exact Hc1|].
        intros q cfg r Hin. exists q0.
        split; [cbn; apply list_elem_of_here | exact (Hexp q cfg r Hin)].
    + rewrite (visit_other rt isz entry c st Hm). apply IH.
Qed.

(** X10. Whatever the collaborators do and however the batch ends, every
    export call of a batch run goes to the derived output path of one of the
    model files of the tree, and that path contains no [.pt]: the batch never
    hands the path of a model file to the exporter. *)
Theorem batch_exports_to_derived_paths rt isz policy_dir tree st q cfg r :
  Ext (CallExport q cfg) r
    ∈ events_since st (convert_batch rt isz policy_dir tree st).2 ->
  (exists p, p ∈ model_files_under policy_dir tree /\ q = derived_output_path p) /\
  PyStr.occurs ".pt" q = false /\
  q ∉ model_files_under policy_dir tree.
Proof.
  rewrite convert_batch_entries. intros Hin.
  destruct (for_entries_exports rt isz (walk_entries (os_walk policy_dir tree))
              zero_counters st) as (new & Hc & Hn).
  rewrite (events_since_app _ _ _ Hc) in Hin.
  destruct (Hn q cfg r Hin) as (p & Hp & ->).
  rewrite model_paths_walk in Hp.
  pose proof (PyStrFacts.replace_go_pt_gone p 0) as Hgone.
  change (PyStr.occurs ".pt" (derived_output_path p) = false) in Hgone.
  split; [eauto|]. split; [exact Hgone|].
  intros Hq. apply model_files_have_pt in Hq. rewrite Hq in Hgone. discriminate Hgone.
Qed.

Lemma batch_exports_to_derived_paths_witness :
  Ext (CallExport "policy/sub/c.onnx" onnx_export_config) None
    ∈ events_since Scenario.st_batch
        (convert_batch Scenario.rt_ok None "policy" Scenario.tree_batch Scenario.st_batch).2 /\
  (exists p, p ∈ model_files_under "policy" Scenario.tree_batch /\
             "policy/sub/c.onnx" = derived_output_path p) /\
  PyStr.occurs ".pt" "policy/sub/c.onnx" = false /\
  "policy/sub/c.onnx" ∉ model_files_under "policy" Scenario.tree_batch.
Proof.
  assert (Ext (CallExport "policy/sub/c.onnx" onnx_export_config) None
            ∈ events_since Scenario.st_batch
                (convert_batch Scenario.rt_ok None "policy" Scenario.tree_batch
                   Scenario.st_batch).2) as Hin by (vm_compute; repeat constructor).
  split; [exact Hin|].
  exact (batch_exports_to_derived_paths Scenario.rt_ok None "policy" Scenario.tree_batch
           Scenario.st_batch _ _ _ Hin).
Defined.



(** The interrupted batch: the first model is exported, the interrupt comes
    from its check, and the two other models are never entered. *)
Example interrupted_batch_run :
  let r := main Interrupts.rt_interrupted "" Scenario.tree_batch Scenario.args_batch
             Scenario.st_batch in
  r.1 = Raise KeyboardInterrupt /\
  List.filter is_invoke (calls r.2) = [Invoke "policy/a.pt" None None] /\
  files r.2 !! "policy/a.onnx" = Some "ONNX" /\
  last (stdout r.2) = Some "Successfully converted policy/a.pt to policy/a.onnx" /\
  exit_status r.1 = Killed 2.
Proof. repeat split; vm_compute; reflexivity. Qed.

(** ** What the output of a conversion tells *)

(** X12. The default input size is announced exactly when it is used: the
    warning about the missing input size is among the lines of a conversion
    if and only if no input size was given and the model was loaded and put
    in evaluation mode. *)
Theorem default_size_warning_iff rt p isz out st :
  let r := convert_pytorch_to_onnx rt p isz out st in
  "Warning: Input size not specified, using default: 48" ∈ stdout_since st r.2
  <-> isz = None /\ Ext CallEval None ∈ events_since st r.2.
Proof.
  intros r. subst r.
  all_runs; try case_exn; try case_exn; log_shape.
  all: split; [intros Hin | intros [Hi Hin]]; try discriminate Hi.
  all: first
    [ split; [reflexivity | repeat constructor]; fail
    | repeat constructor; fail
    | exfalso; not_in_list Hin ].
Qed.

(** X13. The line that reports the conversion as done is among the lines of
    a run if and only if the exporter returned, whatever the verification
    and the result of the run are afterwards. *)
Theorem success_line_iff_exported rt p isz out st :
  let r := convert_pytorch_to_onnx rt p isz out st in
  let target := resolve_output_path p out in
  ("Successfully converted " +:+ p +:+ " to " +:+ target) ∈ stdout_since st r.2
  <-> Ext (CallExport target onnx_export_config) None ∈ events_since st r.2.
Proof.
  intros r target. subst r target.
  all_runs; try case_exn; try case_exn; log_shape.
  all: split; intros Hin.
  all: first
    [ repeat constructor; fail
    | exfalso; not_in_list Hin ].
Qed.
